(** * Task manager backend (app.py): handlers over a relational store

    The Flask handlers of [app.py] are embedded as computations in a small
    reader/state/exception monad.  The reader part is the request context
    (Flask's ambient [request], whether the MySQL server is reachable, an
    injected statement fault, the server clock); the state part is the
    store together with the bookkeeping of open connections; the exception
    part is [mysql.connector.Error] and the two exceptions that reading a
    request body can raise.

    The MySQL server is an external collaborator.  The seven SQL statements
    that occur in [app.py] are given their meaning over two tables of rows,
    following the schema [users(id PK auto, username UNIQUE, password)],
    [tasks(id PK auto, title, status, user_id, created_at)]. *)

From Stdlib Require Import ZArith List String Bool Lia DecimalString.
From Stdlib Require Import Sorting.Sorted Sorting.Permutation.
Import ListNotations.
Local Open Scope string_scope.
Local Open Scope Z_scope.
Local Open Scope list_scope.

(** ** Python values and dictionaries *)

(** The scalars that travel between a JSON body, the statement parameters
    and the columns: [None]/NULL, integers and strings.  Arrays, nested
    objects, booleans and floats as the value of a field are outside the
    model. *)
Inductive PyVal : Type :=
| PNone
| PInt (n : Z)
| PStr (s : string).

Definition Dict : Type := list (string * PyVal).

(** [d.get(key)]: the first binding of [key], [None] when there is none. *)
Fixpoint dict_get (d : Dict) (key : string) : PyVal :=
  match d with
  | [] => PNone
  | (k, v) :: rest => if String.eqb k key then v else dict_get rest key
  end.

(** [key in d] *)
Fixpoint dict_has (d : Dict) (key : string) : bool :=
  match d with
  | [] => false
  | (k, _) :: rest => String.eqb k key || dict_has rest key
  end.

(** SQL [=] in a [WHERE] clause and in the UNIQUE index: a comparison
    with NULL never holds; two values of one type are compared exactly
    (MySQL's collations and its coercion between numbers and text are not
    modelled: values of different types are unequal). *)
Definition sql_eq (a b : PyVal) : bool :=
  match a, b with
  | PInt x, PInt y => x =? y
  | PStr x, PStr y => String.eqb x y
  | _, _ => false
  end.

(** ** The store *)

Module User.
Record row : Type := mk { id : Z; username : PyVal; password : PyVal }.
End User.

Module Task.
Record row : Type :=
  mk { id : Z; title : PyVal; status : PyVal; user_id : PyVal; created_at : Z }.

(** The row with its status replaced, as [SET status = %s] leaves it. *)
Definition set_status (s : PyVal) (t : row) : row :=
  mk (id t) (title t) s (user_id t) (created_at t).
End Task.

Record Store : Type := mkStore {
  users : list User.row;
  tasks : list Task.row;
  next_user_id : Z;          (* AUTO_INCREMENT of users *)
  next_task_id : Z           (* AUTO_INCREMENT of tasks *)
}.

Definition empty_store : Store := mkStore [] [] 1 1.

(** [mysql.connector.Error], with the attributes [errno], [sqlstate] and
    [msg] as its constructor leaves them ([errno] is -1 when none was
    given). *)
Record DbError : Type := mkDbError { errno : Z; sqlstate : option string; msg : string }.

(** An error that carries no SQLSTATE. *)
Definition mkError (errno : Z) (msg : string) : DbError := mkDbError errno None msg.

Definition decimal (n : Z) : string := NilZero.string_of_int (Z.to_int n).

(** [str(err)], which is what an f-string shows for [{err}]:
    [Error.__str__] returns the message the constructor composed,
    "errno (sqlstate): msg", or "errno: msg" without a SQLSTATE, or the
    bare [msg] when there is no error number or no message. *)
Definition str_error (e : DbError) : string :=
  if String.eqb (msg e) "" || (errno e =? -1) then msg e
  else
    match sqlstate e with
    | Some state =>
        if String.eqb state "" then String.append (decimal (errno e)) (String.append ": " (msg e))
        else String.append (decimal (errno e))
               (String.append " (" (String.append state (String.append "): " (msg e))))
    | None => String.append (decimal (errno e)) (String.append ": " (msg e))
    end.

(** Error 1062: duplicate entry for a UNIQUE key. *)
Definition ER_DUP_ENTRY : Z := 1062.
Definition duplicate_entry : DbError :=
  mkDbError ER_DUP_ENTRY (Some "23000") "Duplicate entry".
Definition is_duplicate (e : DbError) : bool := errno e =? ER_DUP_ENTRY.

(** The statements of app.py, with their bound parameters. *)
Inductive Stmt : Type :=
| CountUsers                                   (* SELECT COUNT( * ) FROM users *)
| InsertUser (username password : PyVal)       (* INSERT INTO users (username, password) VALUES (%s, %s) *)
| SelectUser (username password : PyVal)       (* SELECT id, username FROM users WHERE username = %s AND password = %s *)
| SelectTasks (user_id : Z)                    (* SELECT * FROM tasks WHERE user_id = %s ORDER BY created_at DESC *)
| InsertTask (title user_id : PyVal)           (* INSERT INTO tasks (title, user_id) VALUES (%s, %s) *)
| UpdateStatus (status : PyVal) (task_id : Z)  (* UPDATE tasks SET status = %s WHERE id = %s *)
| DeleteTask (task_id : Z).                    (* DELETE FROM tasks WHERE id = %s *)

(** What a cursor holds after [execute]. *)
Record Cursor : Type := mkCursor { rows : list Dict; lastrowid : PyVal }.

Definition no_rows : Cursor := mkCursor [] PNone.

Definition user_matches (username password : PyVal) (r : User.row) : bool :=
  sql_eq (User.username r) username && sql_eq (User.password r) password.

Definition username_taken (username : PyVal) (us : list User.row) : bool :=
  existsb (fun r => sql_eq (User.username r) username) us.

Definition owned_by (user_id : Z) (t : Task.row) : bool :=
  sql_eq (Task.user_id t) (PInt user_id).

Definition has_id (task_id : Z) (t : Task.row) : bool := Task.id t =? task_id.

(** [ORDER BY created_at DESC], by insertion; rows with equal timestamps
    keep their table order. *)
Fixpoint insert_desc (t : Task.row) (l : list Task.row) : list Task.row :=
  match l with
  | [] => [t]
  | h :: rest =>
      if Task.created_at h <=? Task.created_at t
      then t :: l
      else h :: insert_desc t rest
  end.

Definition order_by_created_at_desc (l : list Task.row) : list Task.row :=
  fold_right insert_desc [] l.

(** Rows as a dictionary cursor returns them. *)
Definition user_dict (r : User.row) : Dict :=
  [("id", PInt (User.id r)); ("username", User.username r)].

Definition task_dict (t : Task.row) : Dict :=
  [("id", PInt (Task.id t)); ("title", Task.title t); ("status", Task.status t);
   ("user_id", Task.user_id t); ("created_at", PInt (Task.created_at t))].

(** Modelled from the spec: the schema is not part of app.py.  The spec
    gives [users(id PK auto, username UNIQUE, password)] and
    [tasks(id PK auto, title, status, user_id, created_at)], with [status]
    defaulting to "pending" and [created_at] set at creation.  [exec_stmt]
    is the meaning of one statement on a store at server time [now]:
    the error it raises, or the new store and the cursor contents. *)
Definition exec_stmt (now : Z) (q : Stmt) (s : Store) : DbError + Store * Cursor :=
  match q with
  | CountUsers =>
      inr (s, mkCursor [[("COUNT(*)", PInt (Z.of_nat (List.length (users s))))]] PNone)
  | InsertUser username password =>
      if username_taken username (users s) then inl duplicate_entry
      else
        let r := User.mk (next_user_id s) username password in
        inr (mkStore (users s ++ [r]) (tasks s) (next_user_id s + 1) (next_task_id s),
             mkCursor [] (PInt (next_user_id s)))
  | SelectUser username password =>
      inr (s, mkCursor (map user_dict (filter (user_matches username password) (users s))) PNone)
  | SelectTasks user_id =>
      inr (s, mkCursor
                (map task_dict (order_by_created_at_desc (filter (owned_by user_id) (tasks s))))
                PNone)
  | InsertTask title user_id =>
      let t := Task.mk (next_task_id s) title (PStr "pending") user_id now in
      inr (mkStore (users s) (tasks s ++ [t]) (next_user_id s) (next_task_id s + 1),
           mkCursor [] (PInt (next_task_id s)))
  | UpdateStatus status task_id =>
      inr (mkStore (users s)
                   (map (fun t => if has_id task_id t then Task.set_status status t else t)
                        (tasks s))
                   (next_user_id s) (next_task_id s),
           no_rows)
  | DeleteTask task_id =>
      inr (mkStore (users s)
                   (filter (fun t => negb (has_id task_id t)) (tasks s))
                   (next_user_id s) (next_task_id s),
           no_rows)
  end.

(** ** Requests, responses, the world *)

(** What [request.get_json()] returns: a dictionary for a JSON object
    (with scalar fields; nested values are outside the model), or some
    other Python value for a JSON array, string, number, boolean or
    null. *)
Inductive PyData : Type :=
| PyDict (d : Dict)
| PyOther.

(** Flask's [request]: whether the content type is JSON, and what the
    body parses to, [None] when it is not JSON text. *)
Record Request : Type := mkRawRequest { is_json : bool; json : option PyData }.

(** A request whose body is a JSON object. *)
Definition mkRequest (is_json : bool) (body : Dict) : Request :=
  mkRawRequest is_json (Some (PyDict body)).

(** The context of one request. *)
Record Env : Type := mkEnv {
  request : Request;
  reachable : bool;            (* mysql.connector.connect succeeds *)
  fault : option DbError;      (* a fault the server raises on the next execute *)
  now : Z                      (* server clock, for created_at *)
}.

(** [db] is the committed store.  [txn] is the view of the connection the
    running handler holds: statements act on it, [commit] publishes it,
    and it is dropped at [close].  [open_conns] counts the connections
    that were obtained and not closed. *)
Record World : Type := mkWorld {
  db : Store;
  txn : option Store;
  open_conns : nat
}.

Definition initial_world : World := mkWorld empty_store None 0.

Inductive Body : Type :=
| JsonObj (d : Dict)                                   (* jsonify(dict) *)
| JsonArr (l : list Dict)                              (* jsonify(list of dict) *)
| Html (db_status error_msg : string) (user_count : PyVal). (* render_template('index.html', ...) *)

(** A view's return value: body and status code. *)
Definition Response : Type := (Body * Z)%type.

Definition jsonify (d : Dict) : Body := JsonObj d.

(** ** The handler monad *)

(** The exceptions that occur in the handlers: [mysql.connector.Error],
    [werkzeug.exceptions.BadRequest] and [AttributeError]. *)
Inductive Exn : Type :=
| MySQLError (e : DbError)
| BadRequest
| AttributeError.

Coercion MySQLError : DbError >-> Exn.

Inductive Result (A : Type) : Type :=
| Ok (a : A)
| Raise (x : Exn).
Arguments Ok {A} a.
Arguments Raise {A} x.

Definition M (A : Type) : Type := Env -> World -> Result A * World.

Definition ret {A} (a : A) : M A := fun _ w => (Ok a, w).

Definition bind {A B} (c : M A) (k : A -> M B) : M B :=
  fun env w =>
    match c env w with
    | (Ok a, w') => k a env w'
    | (Raise x, w') => (Raise x, w')
    end.

Declare Scope handler_scope.
Delimit Scope handler_scope with handler.
Notation "x <- c ;; k" := (bind c (fun x => k))
  (at level 61, c at next level, right associativity) : handler_scope.
Notation "' pat <- c ;; k" := (bind c (fun x => match x with pat => k end))
  (at level 61, pat pattern, c at next level, right associativity) : handler_scope.
Notation "c ;; k" := (bind c (fun _ => k))
  (at level 61, right associativity) : handler_scope.
Local Open Scope handler_scope.

(** [try: body  except mysql.connector.Error as err: handler(err)
    finally: final].  The [except] clause catches [mysql.connector.Error]
    and lets any other exception pass.  The [finally] block runs on every
    way out of the body and of the handler; an exception it raises
    replaces the result. *)
Definition try_except_finally {A} (body : M A) (handler : DbError -> M A)
           (final : M unit) : M A :=
  fun env w =>
    let (r, w1) :=
      match body env w with
      | (Ok a, w') => (Ok a, w')
      | (Raise (MySQLError e), w') => handler e env w'
      | (Raise x, w') => (Raise x, w')
      end in
    match final env w1 with
    | (Ok _, w2) => (r, w2)
    | (Raise x, w2) => (Raise x, w2)
    end.

(** ** The persistence gateway *)

Inductive Conn : Type := Connection.

(** [get_db_connection()]: a connection, or [None] when
    [mysql.connector.connect] raises.  The configuration is taken as
    valid: [DB_PORT], when set, is a number, so that [int] of it does not
    raise before the connection is attempted. *)
Definition get_db_connection : M (option Conn) :=
  fun env w =>
    if reachable env
    then (Ok (Some Connection), mkWorld (db w) (Some (db w)) (S (open_conns w)))
    else (Ok None, w).

Definition not_connected : DbError := mkError 2055 "MySQL Connection not available".

(** [conn.cursor()] *)
Definition conn_cursor (_ : Conn) : Cursor := no_rows.

(** [cursor.execute(q, params)]: the cursor after the statement. *)
Definition cursor_execute (_ : Cursor) (q : Stmt) : M Cursor :=
  fun env w =>
    match fault env with
    | Some e => (Raise e, w)
    | None =>
        match txn w with
        | None => (Raise not_connected, w)
        | Some s =>
            match exec_stmt (now env) q s with
            | inl e => (Raise e, w)
            | inr (s', c) => (Ok c, mkWorld (db w) (Some s') (open_conns w))
            end
        end
    end.

Definition fetchone (c : Cursor) : option Dict := hd_error (rows c).
Definition fetchall (c : Cursor) : list Dict := rows c.

(** [cursor.close()] *)
Definition cursor_close (_ : Cursor) : M unit := ret tt.

(** [conn.commit()] *)
Definition conn_commit (_ : Conn) : M unit :=
  fun _ w =>
    match txn w with
    | Some s => (Ok tt, mkWorld s (Some s) (open_conns w))
    | None => (Raise not_connected, w)
    end.

(** [conn.close()] *)
Definition conn_close (_ : Conn) : M unit :=
  fun _ w => (Ok tt, mkWorld (db w) None (Nat.pred (open_conns w))).

(** [request.is_json] *)
Definition request_is_json : M bool := fun env w => (Ok (is_json (request env)), w).

(** [request.get_json()]: the parsed body; a body that is not JSON text
    raises [BadRequest]. *)
Definition request_get_json : M PyData :=
  fun env w =>
    match json (request env) with
    | Some data => (Ok data, w)
    | None => (Raise BadRequest, w)
    end.

(** [data.get(key)]: defined on a dictionary; any other value that a JSON
    body parses to has no attribute [get]. *)
Definition data_get (data : PyData) (key : string) : M PyVal :=
  fun _ w =>
    match data with
    | PyDict d => (Ok (dict_get d key), w)
    | PyOther => (Raise AttributeError, w)
    end.

(** ** The handlers *)

Definition error_body (m : string) : Body := jsonify [("error", PStr m)].
Definition message_body (m : string) : Body := jsonify [("message", PStr m)].

(** [GET /] *)
Definition index : M Response :=
  let db_status := "Connected" in
  let error_msg := "" in
  let user_count := PInt 0 in
  conn <- get_db_connection ;;
  '(db_status, error_msg, user_count) <-
    match conn with
    | None =>
        ret ("Disconnected",
             "Could not connect to MySQL. Check XAMPP and .env settings.",
             user_count)
    | Some conn =>
        try_except_finally
          (let cursor := conn_cursor conn in
           cursor <- cursor_execute cursor CountUsers ;;
           let user_count :=
             match fetchone cursor with
             | Some ((_, v) :: _) => v
             | _ => PNone
             end in
           cursor_close cursor ;;
           ret (db_status, error_msg, user_count))
          (fun err =>
             ret ("Table Error",
                  String.append "Connected to DB, but failed to fetch users: " (str_error err),
                  user_count))
          (conn_close conn)
    end ;;
  ret (Html db_status error_msg user_count, 200).

(** [POST /register] *)
Definition register : M Response :=
  json <- request_is_json ;;
  if negb json
  then ret (error_body "Content-Type must be application/json", 415)
  else
    data <- request_get_json ;;
    username <- data_get data "username" ;;
    password <- data_get data "password" ;;
    conn <- get_db_connection ;;
    match conn with
    | None => ret (error_body "Database connection failed.", 500)
    | Some conn =>
        let cursor := conn_cursor conn in
        try_except_finally
          (cursor_execute cursor (InsertUser username password) ;;
           conn_commit conn ;;
           ret (message_body "User registered successfully", 201))
          (fun _ => ret (error_body "Username already exists", 400))
          (cursor_close cursor ;;
           conn_close conn)
    end.

(** [POST /login].  A row fetched by the dictionary cursor is a non-empty
    dictionary, so [if user:] tests that a row was fetched.  The source
    creates the cursor as the first statement of the [try] block; creating
    a cursor has no effect here, so it is bound before the block, where
    the [finally] block can name it. *)
Definition login : M Response :=
  json <- request_is_json ;;
  if negb json
  then ret (error_body "Content-Type must be application/json", 415)
  else
    data <- request_get_json ;;
    username <- data_get data "username" ;;
    password <- data_get data "password" ;;
    conn <- get_db_connection ;;
    match conn with
    | None => ret (error_body "Database connection failed", 500)
    | Some conn =>
        let cursor := conn_cursor conn in
        try_except_finally
          (cursor <- cursor_execute cursor (SelectUser username password) ;;
           let user := fetchone cursor in
           match user with
           | Some user => ret (jsonify user, 200)
           | None => ret (error_body "Invalid username or password", 401)
           end)
          (fun err => ret (error_body "Database query failed", 500))
          (cursor_close cursor ;;
           conn_close conn)
    end.

(** [GET /tasks/<int:user_id>] *)
Definition get_tasks (user_id : Z) : M Response :=
  conn <- get_db_connection ;;
  match conn with
  | None => ret (error_body "Database connection failed", 500)
  | Some conn =>
      let cursor := conn_cursor conn in
      cursor <- cursor_execute cursor (SelectTasks user_id) ;;
      let tasks := fetchall cursor in
      cursor_close cursor ;;
      conn_close conn ;;
      ret (JsonArr tasks, 200)
  end.

(** [POST /tasks] *)
Definition add_task : M Response :=
  json <- request_is_json ;;
  if negb json
  then ret (error_body "Content-Type must be application/json", 415)
  else
    data <- request_get_json ;;
    title <- data_get data "title" ;;
    user_id <- data_get data "user_id" ;;
    conn <- get_db_connection ;;
    match conn with
    | None => ret (error_body "Database connection failed", 500)
    | Some conn =>
        let cursor := conn_cursor conn in
        cursor <- cursor_execute cursor (InsertTask title user_id) ;;
        conn_commit conn ;;
        let new_id := lastrowid cursor in
        cursor_close cursor ;;
        conn_close conn ;;
        ret (jsonify [("id", new_id); ("title", title); ("status", PStr "pending")], 201)
    end.

(** [PUT /tasks/<int:task_id>] *)
Definition update_task (task_id : Z) : M Response :=
  json <- request_is_json ;;
  if negb json
  then ret (error_body "Content-Type must be application/json", 415)
  else
    data <- request_get_json ;;
    new_status <- data_get data "status" ;;
    conn <- get_db_connection ;;
    match conn with
    | None => ret (error_body "Database connection failed", 500)
    | Some conn =>
        let cursor := conn_cursor conn in
        cursor_execute cursor (UpdateStatus new_status task_id) ;;
        conn_commit conn ;;
        cursor_close cursor ;;
        conn_close conn ;;
        ret (message_body "Updated", 200)
    end.

(** [DELETE /tasks/<int:task_id>] *)
Definition delete_task (task_id : Z) : M Response :=
  conn <- get_db_connection ;;
  match conn with
  | None => ret (error_body "Database connection failed", 500)
  | Some conn =>
      let cursor := conn_cursor conn in
      cursor_execute cursor (DeleteTask task_id) ;;
      conn_commit conn ;;
      cursor_close cursor ;;
      conn_close conn ;;
      ret (message_body "Deleted", 200)
  end.

(** ** The application: routes and sequences of requests *)

Inductive Route : Type :=
| GetIndex                       (* GET / *)
| PostRegister                   (* POST /register *)
| PostLogin                      (* POST /login *)
| GetTasks (user_id : Z)         (* GET /tasks/<int:user_id> *)
| PostTasks                      (* POST /tasks *)
| PutTask (task_id : Z)          (* PUT /tasks/<int:task_id> *)
| DeleteTaskRoute (task_id : Z). (* DELETE /tasks/<int:task_id> *)

Definition dispatch (r : Route) : M Response :=
  match r with
  | GetIndex => index
  | PostRegister => register
  | PostLogin => login
  | GetTasks user_id => get_tasks user_id
  | PostTasks => add_task
  | PutTask task_id => update_task task_id
  | DeleteTaskRoute task_id => delete_task task_id
  end.

(** The routes that write to the store or carry credentials in a body. *)
Definition is_write (r : Route) : bool :=
  match r with
  | PostRegister | PostLogin | PostTasks | PutTask _ | DeleteTaskRoute _ => true
  | GetIndex | GetTasks _ => false
  end.

(** Requests served one after the other, each in its own context. *)
Fixpoint serve (reqs : list (Route * Env)) (w : World) : World :=
  match reqs with
  | [] => w
  | (r, env) :: rest => serve rest (snd (dispatch r env w))
  end.

(** A context in which the store answers: reachable, no injected fault. *)
Definition healthy (env : Env) : Prop := reachable env = true /\ fault env = None.

Definition json_request (body : Dict) : Request := mkRequest true body.

(** The rows a listing response shows. *)
Definition listed (r : Result Response * World) : list Dict :=
  match fst r with
  | Ok (JsonArr l, _) => l
  | _ => []
  end.

(** ** Invariants of the store *)

Fixpoint names_unique (us : list User.row) : bool :=
  match us with
  | [] => true
  | r :: rest => negb (username_taken (User.username r) rest) && names_unique rest
  end.

(** The UNIQUE index on usernames holds and every assigned id is below
    its table's AUTO_INCREMENT counter. *)
Definition wf_store (s : Store) : bool :=
  names_unique (users s)
  && forallb (fun r => User.id r <? next_user_id s) (users s)
  && forallb (fun t => Task.id t <? next_task_id s) (tasks s).

(** [ORDER BY created_at DESC] as a property of a result. *)
Definition newest_first (a b : Task.row) : Prop := Task.created_at a >= Task.created_at b.

(** * Properties *)

(** ** SQL equality *)

Lemma sql_eq_eq (a b : PyVal) : sql_eq a b = true -> a = b.
Proof.
  destruct a, b; simpl; try discriminate; intro H.
  - apply Z.eqb_eq in H. now subst.
  - apply String.eqb_eq in H. now subst.
Qed.

Lemma sql_eq_sym (a b : PyVal) : sql_eq a b = sql_eq b a.
Proof.
  destruct a, b; simpl; auto using Z.eqb_sym, String.eqb_sym.
Qed.

Lemma sql_eq_str (u : string) : sql_eq (PStr u) (PStr u) = true.
Proof. simpl. apply String.eqb_refl. Qed.

Lemma sql_eq_int (n : Z) : sql_eq (PInt n) (PInt n) = true.
Proof. simpl. apply Z.eqb_refl. Qed.



Lemma sql_eq_join (a b c : PyVal) :
  sql_eq a c = true -> sql_eq b c = true -> sql_eq a b = true.
Proof.
  intros Ha Hb. apply sql_eq_eq in Hb. subst c. exact Ha.
Qed.

(** ** ORDER BY *)

Lemma insert_desc_perm (t : Task.row) (l : list Task.row) :
  Permutation (insert_desc t l) (t :: l).
Proof.
  induction l as [|h rest IH]; simpl; auto.
  destruct (Task.created_at h <=? Task.created_at t); auto.
  rewrite IH. apply perm_swap.
Qed.

Lemma order_by_perm (l : list Task.row) : Permutation (order_by_created_at_desc l) l.
Proof.
  induction l as [|t l IH]; simpl; auto.
  rewrite insert_desc_perm. now constructor.
Qed.

Lemma insert_desc_sorted (t : Task.row) (l : list Task.row) :
  StronglySorted newest_first l -> StronglySorted newest_first (insert_desc t l).
Proof.
  induction 1 as [|h rest Hs IH Hh]; simpl.
  - repeat constructor.
  - destruct (Z.leb_spec (Task.created_at h) (Task.created_at t)) as [Hle|Hgt].
    + constructor; [now constructor|].
      constructor; [unfold newest_first; lia|].
      eapply Forall_impl; [|exact Hh]. unfold newest_first. intros; lia.
    + constructor; auto.
      eapply Permutation_Forall; [symmetry; apply insert_desc_perm|].
      constructor; auto. unfold newest_first. lia.
Qed.

Lemma order_by_sorted (l : list Task.row) :
  StronglySorted newest_first (order_by_created_at_desc l).
Proof.
  induction l as [|t l IH]; simpl; [constructor|].
  now apply insert_desc_sorted.
Qed.

(** ** The UNIQUE index *)

Lemma username_taken_app (x : PyVal) (us vs : list User.row) :
  username_taken x (us ++ vs) = username_taken x us || username_taken x vs.
Proof. unfold username_taken. apply existsb_app. Qed.

Lemma not_taken_no_match (u p : PyVal) (us : list User.row) :
  username_taken u us = false -> filter (user_matches u p) us = [].
Proof.
  induction us as [|r us IH]; simpl; auto.
  intro H. apply orb_false_iff in H as [Hr Hus].
  unfold user_matches at 1. rewrite Hr. simpl. auto.
Qed.

Lemma names_unique_snoc (us : list User.row) (r : User.row) :
  names_unique us = true ->
  username_taken (User.username r) us = false ->
  names_unique (us ++ [r]) = true.
Proof.
  induction us as [|h us IH]; [reflexivity|].
  cbn [names_unique app]. intros Hu Ht.
  apply andb_true_iff in Hu as [Hh Hu].
  cbn [username_taken existsb] in Ht.
  apply orb_false_iff in Ht as [Hhr Ht].
  rewrite username_taken_app. cbn [username_taken existsb].
  rewrite (sql_eq_sym (User.username r)), Hhr, !orb_false_r, Hh.
  now apply IH.
Qed.

Lemma names_unique_same (us : list User.row) (r r' : User.row) :
  names_unique us = true -> In r us -> In r' us ->
  sql_eq (User.username r') (User.username r) = true -> r' = r.
Proof.
  induction us as [|h us IH]; simpl; [tauto|].
  intros Hu Hr Hr' He.
  apply andb_true_iff in Hu as [Hh Hu].
  apply negb_true_iff in Hh.
  assert (Hno : forall x, In x us -> sql_eq (User.username x) (User.username h) = false).
  { intros x Hx. unfold username_taken in Hh.
    destruct (sql_eq (User.username x) (User.username h)) eqn:E; auto.
    assert (existsb (fun r0 => sql_eq (User.username r0) (User.username h)) us = true)
      by (apply existsb_exists; eauto).
    congruence. }
  destruct Hr as [->|Hr], Hr' as [->|Hr']; auto.
  - apply Hno in Hr'. congruence.
  - apply Hno in Hr. rewrite sql_eq_sym in He. congruence.
Qed.

(** With unique usernames, the rows a login selects are copies of the one
    row that carries the username. *)
Lemma unique_first_match (us : list User.row) (r : User.row) (u p : PyVal) :
  names_unique us = true -> In r us -> sql_eq (User.username r) u = true ->
  hd_error (filter (user_matches u p) us) =
    if sql_eq (User.password r) p then Some r else None.
Proof.
  intros Hu Hr Hn.
  assert (Hall : forall x, In x (filter (user_matches u p) us) -> x = r).
  { intros x Hx. apply filter_In in Hx as [Hx Hm].
    unfold user_matches in Hm. apply andb_true_iff in Hm as [Hm _].
    apply (names_unique_same us); auto.
    eapply sql_eq_join; eauto. }
  destruct (sql_eq (User.password r) p) eqn:Hp.
  - assert (Hin : In r (filter (user_matches u p) us)).
    { apply filter_In. split; auto. unfold user_matches. now rewrite Hn, Hp. }
    destruct (filter (user_matches u p) us) as [|x l]; [contradiction|].
    simpl. f_equal. apply Hall. now left.
  - destruct (filter (user_matches u p) us) as [|x l] eqn:E; auto.
    assert (Hx : In x (filter (user_matches u p) us)) by (rewrite E; now left).
    assert (x = r) as -> by (apply Hall; now left).
    apply filter_In in Hx as [_ Hm]. unfold user_matches in Hm.
    rewrite Hp, andb_false_r in Hm. discriminate.
Qed.

(** ** The handlers when the store answers *)

Ltac run_handler :=
  unfold dispatch, index, register, login, get_tasks, add_task, update_task, delete_task,
    bind, ret, try_except_finally, request_is_json, request_get_json, data_get,
    get_db_connection, cursor_execute, conn_commit, conn_close, cursor_close, conn_cursor;
  cbn beta iota.

(** Case analysis on what a handler meets: the content type, the body,
    the connection, the injected fault, the statement's outcome, the row
    fetched. *)
Ltac handler_cases env :=
  run_handler;
  try match goal with
      | |- context [is_json (request env)] =>
          destruct (is_json (request env)) eqn:?Hjson; cbn [negb]
      end;
  try match goal with
      | |- context [json (request env)] =>
          destruct (json (request env)) as [[?body|]|] eqn:?Hbody; cbn [fst snd]
      end;
  try match goal with
      | |- context [reachable env] =>
          destruct (reachable env) eqn:?Hreach; cbn [fst snd]
      end;
  try match goal with
      | |- context [fault env] =>
          destruct (fault env) eqn:?Hfault; cbn [fst snd txn open_conns db]
      end;
  try match goal with
      | |- context [exec_stmt ?t0 ?q0 ?s0] =>
          let E := fresh "Hexec" in
          destruct (exec_stmt t0 q0 s0) as [?e|[?s ?c]] eqn:E;
          cbn [fst snd txn open_conns db]
      end;
  try match goal with
      | |- context [fetchone ?c0] => destruct (fetchone c0) as [[|[? ?] ?]|]
      end;
  cbn.

(** Replaces the request by the JSON object it is known to be. *)
Ltac with_request R :=
  repeat (rewrite R; unfold json_request, mkRequest; cbn [is_json json negb fst snd]).

(** The world a handler leaves when it closed its connection. *)
Definition closed (s : Store) (w : World) : World := mkWorld s None (open_conns w).

Section Healthy.

Variable env : Env.
Variable w : World.
Hypothesis Hhealthy : healthy env.

Ltac healthy_run :=
  let Hr := fresh "Hr" in
  let Hf := fresh "Hf" in
  pose proof Hhealthy as [Hr Hf]; run_handler;
  rewrite Hr; cbn [txn fst snd]; rewrite Hf; cbn [txn db open_conns now].

Lemma get_tasks_healthy (user_id : Z) :
  get_tasks user_id env w =
    (Ok (JsonArr (map task_dict
                      (order_by_created_at_desc (filter (owned_by user_id) (tasks (db w))))),
         200),
     closed (db w) w).
Proof. healthy_run. reflexivity. Qed.

Lemma delete_task_healthy (task_id : Z) :
  delete_task task_id env w =
    (Ok (message_body "Deleted", 200),
     closed (mkStore (users (db w))
                     (filter (fun t => negb (has_id task_id t)) (tasks (db w)))
                     (next_user_id (db w)) (next_task_id (db w))) w).
Proof. healthy_run. reflexivity. Qed.

Section JsonBody.

Variable body : Dict.
Hypothesis Hrequest : request env = json_request body.

Ltac json_run :=
  run_handler;
  repeat (rewrite Hrequest; unfold json_request, mkRequest; cbn [is_json json negb fst snd]);
  healthy_run.

Lemma register_healthy :
  register env w =
    let username := dict_get body "username" in
    let password := dict_get body "password" in
    if username_taken username (users (db w))
    then (Ok (error_body "Username already exists", 400), closed (db w) w)
    else (Ok (message_body "User registered successfully", 201),
          closed (mkStore (users (db w) ++ [User.mk (next_user_id (db w)) username password])
                          (tasks (db w)) (next_user_id (db w) + 1) (next_task_id (db w))) w).
Proof.
  json_run. unfold exec_stmt.
  destruct (username_taken _ _); reflexivity.
Qed.

Lemma login_healthy :
  login env w =
    let username := dict_get body "username" in
    let password := dict_get body "password" in
    match hd_error (filter (user_matches username password) (users (db w))) with
    | Some r => (Ok (jsonify (user_dict r), 200), closed (db w) w)
    | None => (Ok (error_body "Invalid username or password", 401), closed (db w) w)
    end.
Proof.
  json_run. unfold exec_stmt, fetchone. cbn [rows].
  destruct (filter _ _); reflexivity.
Qed.

Lemma add_task_healthy :
  add_task env w =
    let title := dict_get body "title" in
    let user_id := dict_get body "user_id" in
    (Ok (jsonify [("id", PInt (next_task_id (db w))); ("title", title);
                  ("status", PStr "pending")], 201),
     closed (mkStore (users (db w))
                     (tasks (db w) ++
                        [Task.mk (next_task_id (db w)) title (PStr "pending") user_id (now env)])
                     (next_user_id (db w)) (next_task_id (db w) + 1)) w).
Proof. json_run. reflexivity. Qed.

Lemma update_task_healthy (task_id : Z) :
  update_task task_id env w =
    let new_status := dict_get body "status" in
    (Ok (message_body "Updated", 200),
     closed (mkStore (users (db w))
                     (map (fun t => if has_id task_id t then Task.set_status new_status t else t)
                          (tasks (db w)))
                     (next_user_id (db w)) (next_task_id (db w))) w).
Proof. json_run. reflexivity. Qed.

End JsonBody.

End Healthy.

(** ** Register, then login *)

(** C1.  For a pair of strings [username], [password] whose username no
    row carries yet, [register] answers 201 and appends one user row with
    the next id; a [login] with the same pair right after answers 200 and
    returns the id of that row. *)
Theorem register_then_login
    (env1 env2 : Env) (w : World) (body1 body2 : Dict) (u p : string) :
  healthy env1 -> healthy env2 ->
  request env1 = json_request body1 -> request env2 = json_request body2 ->
  dict_get body1 "username" = PStr u -> dict_get body1 "password" = PStr p ->
  dict_get body2 "username" = PStr u -> dict_get body2 "password" = PStr p ->
  username_taken (PStr u) (users (db w)) = false ->
  let new_id := next_user_id (db w) in
  let w1 := snd (register env1 w) in
  fst (register env1 w) = Ok (message_body "User registered successfully", 201) /\
  users (db w1) = users (db w) ++ [User.mk new_id (PStr u) (PStr p)] /\
  fst (login env2 w1) = Ok (jsonify [("id", PInt new_id); ("username", PStr u)], 200).
Proof.
  intros H1 H2 R1 R2 Hu1 Hp1 Hu2 Hp2 Hfree new_id w1.
  assert (Hreg : register env1 w =
            (Ok (message_body "User registered successfully", 201),
             closed (mkStore (users (db w) ++ [User.mk new_id (PStr u) (PStr p)])
                             (tasks (db w)) (next_user_id (db w) + 1)
                             (next_task_id (db w))) w)).
  { erewrite register_healthy by eassumption.
    rewrite Hu1, Hp1. cbv zeta.
    now rewrite Hfree. }
  subst w1. rewrite Hreg. cbn [fst snd closed db users].
  repeat split.
  erewrite login_healthy by eassumption.
  rewrite Hu2, Hp2. cbv zeta.
  cbn [closed db users].
  rewrite filter_app, (not_taken_no_match _ _ _ Hfree).
  cbn [filter app]. unfold user_matches. cbn [User.username User.password].
  now rewrite !sql_eq_str.
Qed.

Lemma register_then_login_witness :
  let alice := json_request [("username", PStr "alice"); ("password", PStr "pw1")] in
  let env := mkEnv alice true None 0 in
  fst (login env (snd (register env initial_world))) =
    Ok (jsonify [("id", PInt 1); ("username", PStr "alice")], 200).
Proof.
  intros alice env.
  apply (register_then_login env env initial_world
           [("username", PStr "alice"); ("password", PStr "pw1")]
           [("username", PStr "alice"); ("password", PStr "pw1")] "alice" "pw1");
    try reflexivity; split; reflexivity.
Defined.

(** ** Login *)



(** ** Listing, adding and updating tasks *)

(** C7.  [get_tasks] answers 200 with an array of exactly the task rows
    whose [user_id] is the given id, newest first, and leaves the store as
    it was; when no row has that [user_id] the array is empty. *)
Theorem get_tasks_lists_owned (user_id : Z) (env : Env) (w : World) :
  healthy env ->
  exists l : list Task.row,
    fst (get_tasks user_id env w) = Ok (JsonArr (map task_dict l), 200) /\
    Permutation l (filter (owned_by user_id) (tasks (db w))) /\
    (forall t, In t l <-> In t (tasks (db w)) /\ Task.user_id t = PInt user_id) /\
    StronglySorted newest_first l /\
    db (snd (get_tasks user_id env w)) = db w /\
    ((forall t, In t (tasks (db w)) -> Task.user_id t <> PInt user_id) -> l = []).
Proof.
  intro Hh.
  exists (order_by_created_at_desc (filter (owned_by user_id) (tasks (db w)))).
  rewrite get_tasks_healthy by assumption. cbn [fst snd closed db].
  pose proof (order_by_perm (filter (owned_by user_id) (tasks (db w)))) as Hperm.
  assert (Hmem : forall t,
             In t (order_by_created_at_desc (filter (owned_by user_id) (tasks (db w))))
             <-> In t (tasks (db w)) /\ Task.user_id t = PInt user_id).
  { intro t. split.
    - intro Ht. apply (Permutation_in _ Hperm), filter_In in Ht as [Ht Ho].
      split; auto. now apply sql_eq_eq.
    - intros [Ht Ho]. apply (Permutation_in _ (Permutation_sym Hperm)), filter_In.
      split; auto. unfold owned_by. rewrite Ho. apply sql_eq_int. }
  repeat split; auto; try apply Hmem; auto using order_by_sorted.
  intro Hnone.
  destruct (order_by_created_at_desc _) as [|t l]; auto.
  destruct (proj1 (Hmem t) (or_introl eq_refl)) as [Ht Ho].
  now apply Hnone in Ht.
Qed.

Lemma get_tasks_lists_owned_witness :
  let older := Task.mk 1 (PStr "Buy milk") (PStr "done") (PInt 1) 10 in
  let other := Task.mk 2 (PStr "Call home") (PStr "pending") (PInt 2) 15 in
  let newer := Task.mk 3 (PStr "Pay rent") (PStr "pending") (PInt 1) 20 in
  let w := mkWorld (mkStore [] [older; other; newer] 1 4) None 0 in
  let env := mkEnv (mkRequest false []) true None 30 in
  healthy env /\
  fst (get_tasks 1 env w) = Ok (JsonArr [task_dict newer; task_dict older], 200) /\
  exists l : list Task.row,
    fst (get_tasks 1 env w) = Ok (JsonArr (map task_dict l), 200) /\
    StronglySorted newest_first l.
Proof.
  intros older other newer w env.
  assert (Hh : healthy env) by (split; reflexivity).
  split; [exact Hh|]. split; [reflexivity|].
  destruct (get_tasks_lists_owned 1 env w Hh) as (l & Hl & _ & _ & Hs & _).
  exists l. split; assumption.
Defined.

(** C8.  [add_task] on a JSON body appends one task row carrying the
    body's [title] and [user_id], status "pending", the next task id and
    the server time; it answers 201 with [id], [title] and [status] of
    that row and no [created_at] key. *)
Theorem add_task_inserts_pending (env : Env) (w : World) (body : Dict) :
  healthy env -> request env = json_request body ->
  let title := dict_get body "title" in
  let user_id := dict_get body "user_id" in
  let new_id := next_task_id (db w) in
  let w' := snd (add_task env w) in
  let reply := [("id", PInt new_id); ("title", title); ("status", PStr "pending")] in
  fst (add_task env w) = Ok (jsonify reply, 201) /\
  dict_has reply "created_at" = false /\
  tasks (db w') = tasks (db w) ++ [Task.mk new_id title (PStr "pending") user_id (now env)] /\
  users (db w') = users (db w) /\
  (wf_store (db w) = true -> forall t, In t (tasks (db w)) -> Task.id t <> new_id).
Proof.
  intros Hh R title user_id new_id w' reply.
  subst w'. erewrite add_task_healthy by eassumption.
  cbn [fst snd closed db tasks users].
  repeat split.
  intros Hwf t Ht. unfold wf_store in Hwf.
  apply andb_true_iff in Hwf as [_ Hids].
  rewrite forallb_forall in Hids. apply Hids, Z.ltb_lt in Ht.
  subst new_id. lia.
Qed.

Lemma add_task_inserts_pending_witness :
  let body := [("title", PStr "Buy milk"); ("user_id", PInt 1)] in
  let env := mkEnv (json_request body) true None 42 in
  fst (add_task env initial_world) =
    Ok (jsonify [("id", PInt 1); ("title", PStr "Buy milk"); ("status", PStr "pending")], 201) /\
  tasks (db (snd (add_task env initial_world))) =
    [Task.mk 1 (PStr "Buy milk") (PStr "pending") (PInt 1) 42].
Proof.
  intros body env.
  destruct (add_task_inserts_pending env initial_world body) as (H1 & _ & H2 & _);
    [split; reflexivity | reflexivity |].
  split; [exact H1 | exact H2].
Defined.

(** How one row stands to its successor under a status update of the row
    with id [task_id]. *)
Definition updated_row (task_id : Z) (s : PyVal) (t t' : Task.row) : Prop :=
  (Task.id t = task_id ->
     Task.status t' = s /\ Task.id t' = Task.id t /\ Task.title t' = Task.title t /\
     Task.user_id t' = Task.user_id t /\ Task.created_at t' = Task.created_at t) /\
  (Task.id t <> task_id -> t' = t).

Lemma map_update_rows (task_id : Z) (s : PyVal) (l : list Task.row) :
  Forall2 (updated_row task_id s) l
          (map (fun t => if has_id task_id t then Task.set_status s t else t) l).
Proof.
  induction l as [|t l IH]; simpl; constructor; auto.
  unfold updated_row, has_id.
  destruct (Z.eqb_spec (Task.id t) task_id); split; intro;
    try contradiction; try reflexivity.
  now repeat split.
Qed.

Lemma map_update_absent (task_id : Z) (s : PyVal) (l : list Task.row) :
  (forall t, In t l -> Task.id t <> task_id) ->
  map (fun t => if has_id task_id t then Task.set_status s t else t) l = l.
Proof.
  induction l as [|t l IH]; simpl; auto.
  intro H. rewrite IH by auto. unfold has_id.
  destruct (Z.eqb_spec (Task.id t) task_id) as [E|E]; auto.
  now apply H in E; auto.
Qed.

(** C9.  [update_task] on a JSON body answers 200 "Updated"; the row with
    the given id gets the body's [status] and keeps its other fields,
    every other row and the users table stay as they were; when no row
    has that id the store is unchanged. *)
Theorem update_task_sets_status (task_id : Z) (env : Env) (w : World) (body : Dict) :
  healthy env -> request env = json_request body ->
  let w' := snd (update_task task_id env w) in
  fst (update_task task_id env w) = Ok (message_body "Updated", 200) /\
  Forall2 (updated_row task_id (dict_get body "status")) (tasks (db w)) (tasks (db w')) /\
  users (db w') = users (db w) /\
  next_user_id (db w') = next_user_id (db w) /\
  next_task_id (db w') = next_task_id (db w) /\
  ((forall t, In t (tasks (db w)) -> Task.id t <> task_id) -> db w' = db w).
Proof.
  intros Hh R w'. subst w'.
  erewrite update_task_healthy by eassumption.
  cbn [fst snd closed db tasks users next_user_id next_task_id].
  repeat split; auto using map_update_rows.
  intro Habs. rewrite map_update_absent by assumption.
  now destruct (db w).
Qed.

Lemma update_task_sets_status_witness :
  let milk := Task.mk 1 (PStr "Buy milk") (PStr "pending") (PInt 1) 10 in
  let w := mkWorld (mkStore [] [milk] 1 2) None 0 in
  let env := mkEnv (json_request [("status", PStr "done")]) true None 11 in
  fst (update_task 1 env w) = Ok (message_body "Updated", 200) /\
  Forall2 (updated_row 1 (PStr "done")) [milk] (tasks (db (snd (update_task 1 env w)))) /\
  db (snd (update_task 5 env w)) = db w.
Proof.
  intros milk w env.
  destruct (update_task_sets_status 1 env w [("status", PStr "done")])
    as (H1 & H2 & _); [split; reflexivity | reflexivity |].
  destruct (update_task_sets_status 5 env w [("status", PStr "done")])
    as (_ & _ & _ & _ & _ & H3); [split; reflexivity | reflexivity |].
  split; [exact H1|]. split; [exact H2|].
  apply H3. intros t [<-|[]]. discriminate.
Defined.

(** ** What a request can do to the store *)

(** Whatever the context, the committed store after a request is the
    store before it or the outcome of one successful statement on it. *)
Lemma dispatch_db (r : Route) (env : Env) (w : World) :
  db (snd (dispatch r env w)) = db w \/
  exists q c, exec_stmt (now env) q (db w) = inr (db (snd (dispatch r env w)), c).
Proof.
  destruct r; handler_cases env;
    first [ now left | right; eexists; eexists; eassumption ].
Qed.

Lemma exec_stmt_wf (t0 : Z) (q : Stmt) (s s' : Store) (c : Cursor) :
  wf_store s = true -> exec_stmt t0 q s = inr (s', c) -> wf_store s' = true.
Proof.
  unfold wf_store. intros Hwf E.
  apply andb_true_iff in Hwf as [Hwf Ht]. apply andb_true_iff in Hwf as [Hn Hu].
  rewrite forallb_forall in Hu, Ht.
  destruct q; unfold exec_stmt in E;
    try (destruct (username_taken _ _) eqn:Hfree; [discriminate|]);
    inversion E; subst; clear E; cbn [users tasks next_user_id next_task_id];
    rewrite ?Hn; cbn [andb];
    repeat (apply andb_true_iff; split);
    try (apply forallb_forall; assumption).
  - now apply names_unique_snoc.
  - apply forallb_forall. intros x Hx. apply in_app_or in Hx as [Hx|[<-|[]]].
    + apply Hu, Z.ltb_lt in Hx. apply Z.ltb_lt. lia.
    + apply Z.ltb_lt. cbn. lia.
  - apply forallb_forall. intros x Hx. apply in_app_or in Hx as [Hx|[<-|[]]].
    + apply Ht, Z.ltb_lt in Hx. apply Z.ltb_lt. lia.
    + apply Z.ltb_lt. cbn. lia.
  - apply forallb_forall. intros x Hx. apply in_map_iff in Hx as (y & <- & Hy).
    apply Ht in Hy. now destruct (has_id task_id y).
  - apply forallb_forall. intros x Hx. apply filter_In in Hx as [Hx _]. now apply Ht.
Qed.

(** The stores reached from a well-formed one are well-formed. *)
Lemma dispatch_wf (r : Route) (env : Env) (w : World) :
  wf_store (db w) = true -> wf_store (db (snd (dispatch r env w))) = true.
Proof.
  intro Hwf. destruct (dispatch_db r env w) as [->|(q & c & E)]; auto.
  eapply exec_stmt_wf; eauto.
Qed.

Lemma serve_wf (reqs : list (Route * Env)) (w : World) :
  wf_store (db w) = true -> wf_store (db (serve reqs w)) = true.
Proof.
  revert w. induction reqs as [|[r env] reqs IH]; simpl; auto using dispatch_wf.
Qed.

(** Every store the application reaches from the empty one is well-formed,
    whatever the requests and whatever faults occur on the way. *)
Corollary reachable_wf (reqs : list (Route * Env)) :
  wf_store (db (serve reqs initial_world)) = true.
Proof. now apply serve_wf. Qed.

(** An id that was handed out and whose row is gone. *)
Definition retired (task_id : Z) (s : Store) : Prop :=
  task_id < next_task_id s /\ forall t, In t (tasks s) -> Task.id t <> task_id.

Lemma exec_stmt_retired (task_id t0 : Z) (q : Stmt) (s s' : Store) (c : Cursor) :
  retired task_id s -> exec_stmt t0 q s = inr (s', c) -> retired task_id s'.
Proof.
  intros [Hlt Hno] E.
  destruct q; unfold exec_stmt in E;
    try (destruct (username_taken _ _); [discriminate|]);
    inversion E; subst; clear E; split; cbn [tasks next_task_id]; auto; try lia.
  - intros t Ht. apply in_app_or in Ht as [Ht|[<-|[]]]; auto. cbn. lia.
  - intros t Ht. apply in_map_iff in Ht as (y & <- & Hy).
    apply Hno in Hy. now destruct (has_id task_id0 y).
  - intros t Ht. apply filter_In in Ht as [Ht _]. auto.
Qed.

Lemma serve_retired (task_id : Z) (reqs : list (Route * Env)) (w : World) :
  retired task_id (db w) -> retired task_id (db (serve reqs w)).
Proof.
  revert w. induction reqs as [|[r env] reqs IH]; simpl; auto.
  intros w Hr. apply IH.
  destruct (dispatch_db r env w) as [->|(q & c & E)]; auto.
  eapply exec_stmt_retired; eauto.
Qed.

(** Every row of a listing is a row of the tasks table. *)
Lemma listed_from_table (user_id : Z) (env : Env) (w : World) (d : Dict) :
  In d (listed (get_tasks user_id env w)) ->
  exists t, In t (tasks (db w)) /\ d = task_dict t.
Proof.
  unfold listed. run_handler.
  destruct (reachable env); cbn [fst snd txn]; [|intros []].
  destruct (fault env); cbn [fst snd txn]; [intros []|].
  unfold exec_stmt, fetchall. cbn [fst rows]. intro Hd.
  apply in_map_iff in Hd as (t & <- & Ht).
  apply (Permutation_in _ (order_by_perm _)), filter_In in Ht as [Ht _].
  eauto.
Qed.

Lemma filter_twice {A} (f : A -> bool) (l : list A) : filter f (filter f l) = filter f l.
Proof.
  induction l as [|a l IH]; simpl; auto.
  destruct (f a) eqn:E; simpl; rewrite ?E, IH; auto.
Qed.

(** ** Deleting tasks *)

(** C10.  [delete_task] answers 200 "Deleted"; right after it no listing
    shows a row with that id, and a second delete of the same id answers
    200 "Deleted" again and changes nothing.  The row of an existing task
    stays out of the listings after any further requests. *)
Theorem delete_task_removes_and_is_idempotent
    (task_id : Z) (env1 env2 : Env) (w : World) :
  healthy env1 -> healthy env2 ->
  let w1 := snd (delete_task task_id env1 w) in
  let w2 := snd (delete_task task_id env2 w1) in
  fst (delete_task task_id env1 w) = Ok (message_body "Deleted", 200) /\
  fst (delete_task task_id env2 w1) = Ok (message_body "Deleted", 200) /\
  w2 = w1 /\
  (forall user_id env d,
      In d (listed (get_tasks user_id env w1)) -> dict_get d "id" <> PInt task_id) /\
  (wf_store (db w) = true ->
   (exists t, In t (tasks (db w)) /\ Task.id t = task_id) ->
   forall later user_id env d,
     In d (listed (get_tasks user_id env (serve later w1))) ->
     dict_get d "id" <> PInt task_id).
Proof.
  intros H1 H2 w1 w2. subst w2 w1.
  rewrite (delete_task_healthy env1 w H1 task_id). cbn [fst snd].
  rewrite (delete_task_healthy env2 _ H2 task_id).
  cbn [fst snd closed db users tasks next_user_id next_task_id open_conns].
  rewrite filter_twice.
  assert (Hgone : forall t,
             In t (filter (fun t => negb (has_id task_id t)) (tasks (db w))) ->
             Task.id t <> task_id).
  { intros t Ht. apply filter_In in Ht as [_ Ht].
    unfold has_id in Ht. apply negb_true_iff, Z.eqb_neq in Ht. exact Ht. }
  repeat split.
  - intros user_id env d Hd.
    apply listed_from_table in Hd as (t & Ht & ->). cbn [db tasks] in Ht.
    cbn. intro E. inversion E. now apply Hgone in Ht.
  - intros Hwf (t0 & Ht0 & Hid) later user_id env d Hd.
    apply listed_from_table in Hd as (t & Ht & ->).
    assert (Hret : retired task_id
                     (db (serve later
                            (mkWorld (mkStore (users (db w))
                                        (filter (fun t => negb (has_id task_id t)) (tasks (db w)))
                                        (next_user_id (db w)) (next_task_id (db w)))
                                     None (open_conns w))))).
    { apply serve_retired. split; cbn [db tasks next_task_id]; auto.
      unfold wf_store in Hwf. apply andb_true_iff in Hwf as [_ Hids].
      rewrite forallb_forall in Hids. apply Hids, Z.ltb_lt in Ht0. lia. }
    cbn. intro E. inversion E. now apply (proj2 Hret) in Ht.
Qed.

Lemma delete_task_removes_and_is_idempotent_witness :
  let milk := Task.mk 1 (PStr "Buy milk") (PStr "pending") (PInt 1) 10 in
  let rent := Task.mk 2 (PStr "Pay rent") (PStr "pending") (PInt 1) 20 in
  let w := mkWorld (mkStore [] [milk; rent] 1 3) None 0 in
  let env := mkEnv (mkRequest false []) true None 30 in
  let w1 := snd (delete_task 1 env w) in
  fst (delete_task 1 env w) = Ok (message_body "Deleted", 200) /\
  fst (delete_task 1 env w1) = Ok (message_body "Deleted", 200) /\
  snd (delete_task 1 env w1) = w1 /\
  listed (get_tasks 1 env w1) = [task_dict rent].
Proof.
  intros milk rent w env w1.
  destruct (delete_task_removes_and_is_idempotent 1 env env w)
    as (Ha & Hb & Hc & _); [split; reflexivity | split; reflexivity |].
  split; [exact Ha|]. split; [exact Hb|]. split; [exact Hc|]. reflexivity.
Defined.

(** ** Content type *)

(** A request without a JSON body is turned away: status 415, store as
    it was. *)
Definition rejects_non_json (r : Route) (env : Env) (w : World) : Prop :=
  (exists b, fst (dispatch r env w) = Ok (b, 415)) /\
  db (snd (dispatch r env w)) = db w.

(** [delete_task] never looks at [request]. *)
Lemma delete_task_ignores_request (task_id : Z) (env : Env) (req : Request) (w : World) :
  delete_task task_id (mkEnv req (reachable env) (fault env) (now env)) w =
  delete_task task_id env w.
Proof. destruct env as [r0 [|] [e|] t0]; reflexivity. Qed.

(** C2, as stated, fails for DELETE: a DELETE without a JSON body is
    carried out and answered 200. *)
Lemma delete_accepts_non_json :
  let milk := Task.mk 1 (PStr "Buy milk") (PStr "pending") (PInt 1) 10 in
  let w := mkWorld (mkStore [] [milk] 1 2) None 0 in
  let env := mkEnv (mkRequest false []) true None 30 in
  is_write (DeleteTaskRoute 1) = true /\
  is_json (request env) = false /\
  fst (dispatch (DeleteTaskRoute 1) env w) = Ok (message_body "Deleted", 200) /\
  tasks (db w) = [milk] /\
  tasks (db (snd (dispatch (DeleteTaskRoute 1) env w))) = [] /\
  ~ rejects_non_json (DeleteTaskRoute 1) env w.
Proof.
  intros milk w env. repeat split.
  intros [_ Hdb]. discriminate Hdb.
Qed.

(** C2, amended.  [register], [login], [add_task] and [update_task]
    answer a request without a JSON body with 415 and leave the world as
    it was: no connection is obtained and no statement runs. *)
Theorem non_json_body_rejected (task_id : Z) (r : Route) (env : Env) (w : World) :
  In r [PostRegister; PostLogin; PostTasks; PutTask task_id] ->
  is_json (request env) = false ->
  dispatch r env w = (Ok (error_body "Content-Type must be application/json", 415), w) /\
  rejects_non_json r env w.
Proof.
  intros Hr Hj.
  assert (E : dispatch r env w =
              (Ok (error_body "Content-Type must be application/json", 415), w)).
  { simpl in Hr.
    destruct Hr as [<-|[<-|[<-|[<-|[]]]]]; run_handler; now rewrite Hj. }
  split; [exact E|]. unfold rejects_non_json. rewrite E. cbn [fst snd]. eauto.
Qed.

Lemma non_json_body_rejected_witness :
  let env := mkEnv (mkRequest false [("status", PStr "done")]) true None 0 in
  let w := mkWorld (mkStore [] [Task.mk 1 (PStr "Buy milk") (PStr "pending") (PInt 1) 10] 1 2)
                   None 0 in
  dispatch (PutTask 1) env w =
    (Ok (error_body "Content-Type must be application/json", 415), w).
Proof.
  intros env w.
  apply (non_json_body_rejected 1 (PutTask 1) env w).
  - simpl. tauto.
  - reflexivity.
Defined.

(** ** Store faults *)

(** [index], [register] and [login] catch every [mysql.connector.Error]
    and close their connection in a [finally] block: no such error
    leaves them, and no connection stays open. *)
Lemma guarded_handlers_answer (r : Route) (env : Env) (w : World) :
  In r [GetIndex; PostRegister; PostLogin] ->
  (forall e : DbError, fst (dispatch r env w) <> Raise e) /\
  open_conns (snd (dispatch r env w)) = open_conns w.
Proof.
  intro Hr. simpl in Hr.
  destruct Hr as [<-|[<-|[<-|[]]]]; handler_cases env;
    (split; [intros ? H; discriminate H | reflexivity]).
Qed.

(** The task handlers have no [try]: a fault of [execute] leaves them as
    an exception, with the connection still open. *)
Lemma task_handlers_propagate (r : Route) (user_id task_id : Z)
      (env : Env) (w : World) (e : DbError) :
  In r [GetTasks user_id; PostTasks; PutTask task_id; DeleteTaskRoute task_id] ->
  (exists body, request env = json_request body) ->
  reachable env = true -> fault env = Some e ->
  fst (dispatch r env w) = Raise e /\
  open_conns (snd (dispatch r env w)) = S (open_conns w).
Proof.
  intros Hr [body R] Hc Hf. simpl in Hr.
  destruct Hr as [<-|[<-|[<-|[<-|[]]]]]; run_handler; with_request R;
    rewrite Hc; cbn [fst snd]; rewrite Hf; auto.
Qed.

(** C3.  A fault of [execute] in [get_tasks] is not caught: the handler
    ends with the exception instead of a response. *)
Theorem get_tasks_fault_propagates :
  let e := mkError 1146 "Table 'task_manager.tasks' doesn't exist" in
  let env := mkEnv (mkRequest false []) true (Some e) 0 in
  fst (get_tasks 1 env initial_world) = Raise e /\
  forall resp, fst (get_tasks 1 env initial_world) <> Ok resp.
Proof.
  intros e env. split; [reflexivity|]. intros resp H. discriminate H.
Qed.

(** C4.  After a fault of [execute] in [get_tasks] the connection the
    handler obtained is still open. *)
Theorem get_tasks_fault_leaks_connection :
  let e := mkError 1146 "Table 'task_manager.tasks' doesn't exist" in
  let env := mkEnv (mkRequest false []) true (Some e) 0 in
  open_conns initial_world = 0%nat /\
  open_conns (snd (get_tasks 1 env initial_world)) = 1%nat /\
  txn (snd (get_tasks 1 env initial_world)) <> None.
Proof.
  intros e env. repeat split. discriminate.
Qed.

(** [register] answers every fault of [execute] alike. *)
Lemma register_fault_is_400 (env : Env) (w : World) (body : Dict) (e : DbError) :
  request env = json_request body -> reachable env = true -> fault env = Some e ->
  register env w = (Ok (error_body "Username already exists", 400), closed (db w) w).
Proof.
  intros R Hc Hf. run_handler. with_request R. rewrite Hc; cbn [fst snd].
  now rewrite Hf.
Qed.

(** C5.  A fault of [execute] in [register] that is no duplicate entry
    (here error 1146 on an empty users table) is answered 400 "Username
    already exists", not 500. *)
Theorem register_other_fault_is_400 :
  let e := mkError 1146 "Table 'task_manager.users' doesn't exist" in
  let body := [("username", PStr "alice"); ("password", PStr "pw1")] in
  let env := mkEnv (json_request body) true (Some e) 0 in
  is_duplicate e = false /\
  username_taken (PStr "alice") (users (db initial_world)) = false /\
  fst (register env initial_world) = Ok (error_body "Username already exists", 400).
Proof.
  intros e body env. repeat split.
Qed.

(** The duplicate username, for comparison: 400 and no new row. *)
Lemma register_duplicate_is_400 (env : Env) (w : World) (body : Dict) :
  healthy env -> request env = json_request body ->
  username_taken (dict_get body "username") (users (db w)) = true ->
  register env w = (Ok (error_body "Username already exists", 400), closed (db w) w).
Proof.
  intros Hh R Ht. rewrite (register_healthy env w Hh body R). cbv zeta. now rewrite Ht.
Qed.

(** ** The running example of the spec *)

Example scenario :
  let creds := json_request [("username", PStr "alice"); ("password", PStr "pw1")] in
  let env req t := mkEnv req true None t in
  let w1 := snd (register (env creds 1) initial_world) in
  let w2 := snd (add_task (env (json_request [("title", PStr "Buy milk"); ("user_id", PInt 1)]) 2) w1) in
  let w3 := snd (update_task 1 (env (json_request [("status", PStr "done")]) 3) w2) in
  fst (login (env creds 1) w1) = Ok (jsonify [("id", PInt 1); ("username", PStr "alice")], 200) /\
  fst (get_tasks 1 (env creds 4) w3) =
    Ok (JsonArr [[("id", PInt 1); ("title", PStr "Buy milk"); ("status", PStr "done");
                  ("user_id", PInt 1); ("created_at", PInt 2)]], 200) /\
  wf_store (db w3) = true.
Proof. repeat split. Qed.

(** * Further properties of the handlers *)

(** ** Every context at once *)

(** The handlers that call [conn.commit()]. *)
Definition commits (r : Route) : bool :=
  match r with
  | PostRegister | PostTasks | PutTask _ | DeleteTaskRoute _ => true
  | GetIndex | PostLogin | GetTasks _ => false
  end.

(** The handlers that read [request]. *)
Definition reads_body (r : Route) : bool :=
  match r with
  | PostRegister | PostLogin | PostTasks | PutTask _ => true
  | GetIndex | GetTasks _ | DeleteTaskRoute _ => false
  end.

(** The handlers whose statement runs inside a [try] block. *)
Definition guarded (r : Route) : bool :=
  match r with
  | GetIndex | PostRegister | PostLogin => true
  | GetTasks _ | PostTasks | PutTask _ | DeleteTaskRoute _ => false
  end.

(** The status codes a handler returns. *)
Definition statuses (r : Route) : list Z :=
  match r with
  | GetIndex => [200]
  | PostRegister => [201; 400; 415; 500]
  | PostLogin => [200; 401; 415; 500]
  | GetTasks _ => [200; 500]
  | PostTasks => [201; 415; 500]
  | PutTask _ => [200; 415; 500]
  | DeleteTaskRoute _ => [200; 500]
  end.

(** X1.  The diagnostic page never fails: in every context [index]
    answers 200 with the rendered page, leaves the store as it was and
    holds no connection afterwards. *)
Theorem index_never_fails (env : Env) (w : World) :
  (exists status error count, fst (index env w) = Ok (Html status error count, 200)) /\
  db (snd (index env w)) = db w /\
  open_conns (snd (index env w)) = open_conns w.
Proof.
  handler_cases env; repeat split; eauto.
Qed.

(** X2.  What the diagnostic page shows: "Disconnected" and no count when
    the server cannot be reached; "Table Error" with [str(err)], the
    error as Python prints it, when the count query fails; and otherwise
    "Connected" with the number of user rows. *)
Theorem index_diagnostic (env : Env) (w : World) :
  (reachable env = false ->
   index env w =
     (Ok (Html "Disconnected" "Could not connect to MySQL. Check XAMPP and .env settings."
               (PInt 0), 200), w)) /\
  (forall e, reachable env = true -> fault env = Some e ->
   fst (index env w) =
     Ok (Html "Table Error"
              (String.append "Connected to DB, but failed to fetch users: " (str_error e))
              (PInt 0), 200)) /\
  (healthy env ->
   fst (index env w) =
     Ok (Html "Connected" "" (PInt (Z.of_nat (List.length (users (db w))))), 200)).
Proof.
  repeat split.
  - intro Hc. run_handler. now rewrite Hc.
  - intros e Hc Hf. run_handler. rewrite Hc; cbn [fst snd]. now rewrite Hf.
  - intros [Hc Hf]. run_handler. rewrite Hc; cbn [fst snd txn]. now rewrite Hf.
Qed.

Lemma index_diagnostic_witness :
  let e := mkDbError 1146 (Some "42S02") "Table 'task_manager.users' doesn't exist" in
  let env := mkEnv (mkRequest false []) true (Some e) 0 in
  fst (index env initial_world) =
    Ok (Html "Table Error"
             "Connected to DB, but failed to fetch users: 1146 (42S02): Table 'task_manager.users' doesn't exist"
             (PInt 0), 200).
Proof.
  intros e env.
  exact (proj1 (proj2 (index_diagnostic env initial_world)) e eq_refl eq_refl).
Defined.

(** X3.  When the server cannot be reached, every handler but [index]
    answers 500 with an error body and leaves the world untouched;
    [register] words the message with a full stop.  The handlers that
    read a body get there once the body is a JSON object. *)
Theorem unreachable_store_is_500 (r : Route) (env : Env) (w : World) :
  r <> GetIndex ->
  reachable env = false ->
  (reads_body r = true -> exists body, request env = json_request body) ->
  dispatch r env w =
    (Ok (error_body (match r with
                     | PostRegister => "Database connection failed."
                     | _ => "Database connection failed"
                     end), 500), w).
Proof.
  intros Hr Hc Hj.
  destruct r; try contradiction; cbn [reads_body] in Hj;
    try (destruct (Hj eq_refl) as [body R]);
    run_handler; try with_request R; now rewrite Hc.
Qed.

Lemma unreachable_store_is_500_witness :
  let env := mkEnv (json_request [("title", PStr "Buy milk"); ("user_id", PInt 1)])
                   false None 0 in
  dispatch PostTasks env initial_world =
    (Ok (error_body "Database connection failed", 500), initial_world).
Proof.
  intro env.
  apply (unreachable_store_is_500 PostTasks env initial_world).
  - discriminate.
  - reflexivity.
  - intros _. eexists. reflexivity.
Defined.

(** X4.  What a fault of [execute] leads to, handler by handler.  The
    three handlers with a [try] block answer it ([index] with the
    "Table Error" page, [register] with 400, [login] with 500) and close
    their connection; the four without one end with the exception and
    leave the connection open.  The committed store is unchanged in
    every case. *)
Theorem execute_fault_outcome (r : Route) (env : Env) (w : World) (e : DbError) :
  (reads_body r = true -> exists body, request env = json_request body) ->
  reachable env = true -> fault env = Some e ->
  db (snd (dispatch r env w)) = db w /\
  if guarded r
  then
    open_conns (snd (dispatch r env w)) = open_conns w /\
    fst (dispatch r env w) =
      Ok (match r with
          | GetIndex =>
              (Html "Table Error"
                    (String.append "Connected to DB, but failed to fetch users: "
                                   (str_error e))
                    (PInt 0), 200)
          | PostRegister => (error_body "Username already exists", 400)
          | _ => (error_body "Database query failed", 500)
          end)
  else
    open_conns (snd (dispatch r env w)) = S (open_conns w) /\
    fst (dispatch r env w) = Raise e.
Proof.
  intros Hj Hc Hf.
  destruct r; cbn [reads_body] in Hj; cbn [guarded];
    try (destruct (Hj eq_refl) as [body R]);
    run_handler; try with_request R;
    rewrite Hc; cbn [fst snd]; rewrite Hf; cbn; auto.
Qed.

Lemma execute_fault_outcome_witness :
  let e := mkDbError 1205 (Some "HY000") "Lock wait timeout exceeded" in
  let env := mkEnv (json_request [("status", PStr "done")]) true (Some e) 0 in
  fst (dispatch (PutTask 1) env initial_world) = Raise e /\
  open_conns (snd (dispatch (PutTask 1) env initial_world)) = 1%nat /\
  fst (dispatch PostLogin env initial_world) = Ok (error_body "Database query failed", 500).
Proof.
  intros e env.
  assert (Hbody : forall r, reads_body r = true -> exists body, request env = json_request body)
    by (intros r _; eexists; reflexivity).
  destruct (execute_fault_outcome (PutTask 1) env initial_world e (Hbody _) eq_refl eq_refl)
    as (_ & Ho & Hr).
  destruct (execute_fault_outcome PostLogin env initial_world e (Hbody _) eq_refl eq_refl)
    as (_ & _ & Hl).
  split; [exact Hr|]. split; [exact Ho | exact Hl].
Defined.

(** X5.  A handler that returns a response has closed the connection it
    obtained: the number of open connections is what it was. *)
Theorem response_closes_connection (r : Route) (env : Env) (w : World) (resp : Response) :
  fst (dispatch r env w) = Ok resp ->
  open_conns (snd (dispatch r env w)) = open_conns w.
Proof.
  destruct r; handler_cases env; intro H; try discriminate H; reflexivity.
Qed.

Lemma response_closes_connection_witness :
  let env := mkEnv (json_request [("username", PStr "alice"); ("password", PStr "pw1")])
                   true (Some (mkError 1146 "Table 'task_manager.users' doesn't exist")) 0 in
  open_conns (snd (dispatch PostLogin env initial_world)) = 0%nat.
Proof.
  intro env.
  apply (response_closes_connection PostLogin env initial_world
           (error_body "Database query failed", 500)).
  reflexivity.
Defined.

(** X6.  The committed store changes only when a handler that commits
    returns its success response in a healthy context: a rejected, failed
    or faulted request, and every read, leaves it as it was. *)
Theorem store_changes_only_on_success (r : Route) (env : Env) (w : World) :
  db (snd (dispatch r env w)) <> db w ->
  commits r = true /\ healthy env /\
  exists body status,
    fst (dispatch r env w) = Ok (body, status) /\ (status = 200 \/ status = 201).
Proof.
  unfold healthy.
  destruct r; handler_cases env; intro H; try (now contradiction H);
    repeat split; eauto.
Qed.

Lemma store_changes_only_on_success_witness :
  let env := mkEnv (json_request [("title", PStr "Buy milk"); ("user_id", PInt 1)])
                   true None 5 in
  commits PostTasks = true /\ healthy env.
Proof.
  intro env.
  destruct (store_changes_only_on_success PostTasks env initial_world) as (Hc & Hh & _).
  - discriminate.
  - split; [exact Hc | exact Hh].
Defined.

(** X7.  Each handler returns only the status codes of its [return]
    statements, and a body under a 4xx or 5xx status is a single
    [error] message. *)
Theorem status_codes (r : Route) (env : Env) (w : World) (body : Body) (status : Z) :
  fst (dispatch r env w) = Ok (body, status) ->
  In status (statuses r) /\
  (400 <= status -> exists m, body = error_body m).
Proof.
  destruct r; handler_cases env; intro H; try discriminate H;
    inversion H; subst; (split; [tauto | intro; try lia; eauto]).
Qed.

Lemma status_codes_witness :
  let env := mkEnv (mkRequest false []) true None 0 in
  In 415 (statuses PostLogin) /\
  exists m, error_body "Content-Type must be application/json" = error_body m.
Proof.
  intro env.
  destruct (status_codes PostLogin env initial_world
              (error_body "Content-Type must be application/json") 415) as [Hs Hb].
  - reflexivity.
  - split; [exact Hs | apply Hb; lia].
Defined.

(** ** More on ORDER BY *)

(** The rows of one user's listing, in the order [get_tasks] returns them. *)
Definition listing (user_id : Z) (s : Store) : list Task.row :=
  order_by_created_at_desc (filter (owned_by user_id) (tasks s)).

Lemma listed_healthy (user_id : Z) (env : Env) (w : World) :
  healthy env -> listed (get_tasks user_id env w) = map task_dict (listing user_id (db w)).
Proof.
  intro Hh. now rewrite get_tasks_healthy.
Qed.

Lemma insert_desc_head (t : Task.row) (l : list Task.row) :
  Forall (fun x => Task.created_at x <= Task.created_at t) l ->
  insert_desc t l = t :: l.
Proof.
  destruct 1 as [|h rest Hh _]; simpl; auto.
  destruct (Z.leb_spec (Task.created_at h) (Task.created_at t)); auto. lia.
Qed.



Lemma Forall_filter_keep {A} (p : A -> bool) (P : A -> Prop) (l : list A) :
  Forall P l -> Forall P (filter p l).
Proof.
  induction 1 as [|a l Ha _ IH]; simpl; auto.
  destruct (p a); auto.
Qed.

Lemma insert_desc_filter (p : Task.row -> bool) (t : Task.row) (l : list Task.row) :
  StronglySorted newest_first l ->
  filter p (insert_desc t l) =
    if p t then insert_desc t (filter p l) else filter p l.
Proof.
  induction 1 as [|h rest Hs IH Hh]; simpl.
  - now destruct (p t).
  - destruct (Z.leb_spec (Task.created_at h) (Task.created_at t)) as [Hle|Hgt].
    + assert (Hall : Forall (fun x => Task.created_at x <= Task.created_at t) (h :: rest)).
      { constructor; auto. eapply Forall_impl; [|exact Hh].
        unfold newest_first. intros; lia. }
      apply (Forall_filter_keep p) in Hall.
      change (filter p (t :: h :: rest) =
              if p t then insert_desc t (filter p (h :: rest)) else filter p (h :: rest)).
      rewrite (insert_desc_head _ _ Hall). reflexivity.
    + cbn [filter]. rewrite IH. destruct (p h), (p t); auto.
      simpl. destruct (Z.leb_spec (Task.created_at h) (Task.created_at t)); auto. lia.
Qed.

Lemma order_by_filter (p : Task.row -> bool) (l : list Task.row) :
  order_by_created_at_desc (filter p l) = filter p (order_by_created_at_desc l).
Proof.
  induction l as [|t l IH]; simpl; auto.
  rewrite insert_desc_filter by apply order_by_sorted.
  destruct (p t); simpl; now rewrite IH.
Qed.

Lemma order_by_snoc_newest (t : Task.row) (l : list Task.row) :
  Forall (fun x => Task.created_at x < Task.created_at t) l ->
  order_by_created_at_desc (l ++ [t]) = t :: order_by_created_at_desc l.
Proof.
  induction 1 as [|h rest Hh _ IH]; simpl; auto.
  rewrite IH. simpl.
  destruct (Z.leb_spec (Task.created_at t) (Task.created_at h)); auto. lia.
Qed.

Lemma filter_swap {A} (p q : A -> bool) (l : list A) :
  filter p (filter q l) = filter q (filter p l).
Proof.
  induction l as [|a l IH]; simpl; auto.
  destruct (q a) eqn:Q, (p a) eqn:P; simpl; rewrite ?Q, ?P, IH; auto.
Qed.

Lemma filter_map_swap {A B} (p : B -> bool) (f : A -> B) (l : list A) :
  filter p (map f l) = map f (filter (fun a => p (f a)) l).
Proof.
  induction l as [|a l IH]; simpl; auto.
  destruct (p (f a)); simpl; now rewrite IH.
Qed.



(** ** Registering and logging in, continued *)

(** X8.  Registering a username a second time answers 400 "Username
    already exists" and adds nothing, whether or not the first attempt was
    itself turned down and whatever the second password is. *)
Theorem register_twice_is_400
    (env1 env2 : Env) (w : World) (body1 body2 : Dict) (u : string) :
  healthy env1 -> healthy env2 ->
  request env1 = json_request body1 -> request env2 = json_request body2 ->
  dict_get body1 "username" = PStr u -> dict_get body2 "username" = PStr u ->
  let w1 := snd (register env1 w) in
  fst (register env2 w1) = Ok (error_body "Username already exists", 400) /\
  db (snd (register env2 w1)) = db w1.
Proof.
  intros H1 H2 R1 R2 Hu1 Hu2 w1.
  assert (Htaken : username_taken (PStr u) (users (db w1)) = true).
  { subst w1. rewrite (register_healthy env1 w H1 body1 R1).
    rewrite Hu1. cbv zeta.
    destruct (username_taken (PStr u) (users (db w))) eqn:E; cbn [snd closed db users]; auto.
    rewrite username_taken_app, E. cbn. now rewrite String.eqb_refl. }
  rewrite (register_duplicate_is_400 env2 w1 body2 H2 R2); auto.
  now rewrite Hu2.
Qed.

Lemma register_twice_is_400_witness :
  let env1 := mkEnv (json_request [("username", PStr "alice"); ("password", PStr "pw1")])
                    true None 0 in
  let env2 := mkEnv (json_request [("username", PStr "alice"); ("password", PStr "other")])
                    true None 1 in
  fst (register env2 (snd (register env1 initial_world))) =
    Ok (error_body "Username already exists", 400).
Proof.
  intros env1 env2.
  apply (register_twice_is_400 env1 env2 initial_world
           [("username", PStr "alice"); ("password", PStr "pw1")]
           [("username", PStr "alice"); ("password", PStr "other")] "alice");
    try reflexivity; split; reflexivity.
Defined.



(** ** Listings after a write *)


(** X10.  After [add_task] for user [uid], that user's listing is the old
    one with the new row added, every other user's listing is as before,
    and when the server clock has passed every stored [created_at] the
    new row comes first. *)
Theorem add_task_then_listed (env1 env2 : Env) (w : World) (body : Dict) (uid : Z) :
  healthy env1 -> healthy env2 -> request env1 = json_request body ->
  dict_get body "user_id" = PInt uid ->
  let new := Task.mk (next_task_id (db w)) (dict_get body "title") (PStr "pending")
                     (PInt uid) (now env1) in
  let w1 := snd (add_task env1 w) in
  Permutation (listed (get_tasks uid env2 w1))
              (task_dict new :: listed (get_tasks uid env2 w)) /\
  (forall other, other <> uid ->
     listed (get_tasks other env2 w1) = listed (get_tasks other env2 w)) /\
  ((forall t, In t (tasks (db w)) -> Task.created_at t < now env1) ->
   listed (get_tasks uid env2 w1) = task_dict new :: listed (get_tasks uid env2 w)).
Proof.
  intros H1 H2 R Huid new w1. subst w1.
  erewrite add_task_healthy by eassumption.
  cbn [snd]. rewrite Huid. fold new.
  assert (Hmine : forall l, filter (owned_by uid) (l ++ [new]) = filter (owned_by uid) l ++ [new]).
  { intro l. rewrite filter_app. cbn. now rewrite Z.eqb_refl. }
  repeat split.
  - rewrite !listed_healthy by assumption. unfold listing. cbn [closed db tasks].
    rewrite Hmine. rewrite <- map_cons.
    apply Permutation_map.
    rewrite order_by_perm, order_by_perm. symmetry. apply Permutation_cons_append.
  - intros other Hother. rewrite !listed_healthy by assumption.
    unfold listing. cbn [closed db tasks]. rewrite filter_app. cbn.
    destruct (Z.eqb_spec uid other); [congruence|]. now rewrite app_nil_r.
  - intro Hclock. rewrite !listed_healthy by assumption.
    unfold listing. cbn [closed db tasks]. rewrite Hmine.
    rewrite order_by_snoc_newest; [reflexivity|].
    apply Forall_forall. intros t Ht. apply filter_In in Ht as [Ht _].
    now apply Hclock.
Qed.

Lemma add_task_then_listed_witness :
  let milk := Task.mk 1 (PStr "Buy milk") (PStr "done") (PInt 1) 10 in
  let w := mkWorld (mkStore [] [milk] 1 2) None 0 in
  let env := mkEnv (json_request [("title", PStr "Pay rent"); ("user_id", PInt 1)])
                   true None 20 in
  listed (get_tasks 1 env (snd (add_task env w))) =
    [task_dict (Task.mk 2 (PStr "Pay rent") (PStr "pending") (PInt 1) 20); task_dict milk].
Proof.
  intros milk w env.
  destruct (add_task_then_listed env env w
              [("title", PStr "Pay rent"); ("user_id", PInt 1)] 1)
    as (_ & _ & H);
    [split; reflexivity | split; reflexivity | reflexivity | reflexivity |].
  apply H. intros t [<-|[]]. reflexivity.
Defined.



(** X12.  After [delete_task], every listing is the listing from before
    without the rows of the deleted id, in the same order. *)
Theorem delete_task_then_listed (task_id : Z) (env1 env2 : Env) (w : World) (uid : Z) :
  healthy env1 -> healthy env2 ->
  listed (get_tasks uid env2 (snd (delete_task task_id env1 w))) =
    filter (fun d => negb (sql_eq (dict_get d "id") (PInt task_id)))
           (listed (get_tasks uid env2 w)).
Proof.
  intros H1 H2.
  rewrite delete_task_healthy by assumption. cbn [snd].
  rewrite !listed_healthy by assumption. unfold listing. cbn [closed db tasks].
  rewrite filter_swap, order_by_filter, filter_map_swap.
  reflexivity.
Qed.

Lemma delete_task_then_listed_witness :
  let milk := Task.mk 1 (PStr "Buy milk") (PStr "pending") (PInt 1) 10 in
  let rent := Task.mk 2 (PStr "Pay rent") (PStr "pending") (PInt 1) 20 in
  let w := mkWorld (mkStore [] [milk; rent] 1 3) None 0 in
  let env := mkEnv (mkRequest false []) true None 30 in
  listed (get_tasks 1 env (snd (delete_task 2 env w))) = [task_dict milk].
Proof.
  intros milk rent w env.
  assert (Hh : healthy env) by (split; reflexivity).
  rewrite (delete_task_then_listed 2 env env w 1 Hh Hh). reflexivity.
Defined.

(** ** Across later requests *)

Lemma exec_stmt_users (t0 : Z) (q : Stmt) (s s' : Store) (c : Cursor) :
  exec_stmt t0 q s = inr (s', c) -> exists l, users s' = users s ++ l.
Proof.
  intro E. destruct q; unfold exec_stmt in E;
    try (destruct (username_taken _ _); [discriminate|]);
    inversion E; subst; cbn [users]; eauto; exists []; now rewrite app_nil_r.
Qed.

(** No statement of the application updates or deletes a user row: the
    users table only grows at its end. *)
Lemma serve_users (reqs : list (Route * Env)) (w : World) :
  exists l, users (db (serve reqs w)) = users (db w) ++ l.
Proof.
  revert w. induction reqs as [|[r env] reqs IH]; intro w; simpl.
  - exists []. now rewrite app_nil_r.
  - destruct (IH (snd (dispatch r env w))) as [l2 E2]. rewrite E2.
    destruct (dispatch_db r env w) as [->|(q & c & E)]; eauto.
    apply exec_stmt_users in E as [l1 ->]. rewrite <- app_assoc. eauto.
Qed.

(** X13.  A registered user stays registered: whatever requests are
    served afterwards, with whatever faults, a login with the stored
    username and password answers 200 with the same id. *)
Theorem login_survives_later_requests
    (env : Env) (w : World) (later : list (Route * Env)) (body : Dict)
    (r : User.row) (u p : string) :
  healthy env -> request env = json_request body ->
  dict_get body "username" = PStr u -> dict_get body "password" = PStr p ->
  wf_store (db w) = true ->
  In r (users (db w)) -> User.username r = PStr u -> User.password r = PStr p ->
  fst (login env (serve later w)) =
    Ok (jsonify [("id", PInt (User.id r)); ("username", PStr u)], 200).
Proof.
  intros Hh R Hu Hp Hwf Hin Hname Hpass.
  pose proof (serve_wf later w Hwf) as Hwf'.
  unfold wf_store in Hwf'. apply andb_true_iff in Hwf' as [Hwf' _].
  apply andb_true_iff in Hwf' as [Huniq _].
  destruct (serve_users later w) as [l El].
  erewrite login_healthy by eassumption.
  rewrite Hu, Hp. cbv zeta.
  rewrite (unique_first_match _ r); auto.
  - rewrite Hpass, sql_eq_str. cbn [fst]. unfold user_dict. now rewrite Hname.
  - rewrite El. apply in_or_app. now left.
  - rewrite Hname. apply sql_eq_str.
Qed.

Lemma login_survives_later_requests_witness :
  let creds := [("username", PStr "bob"); ("password", PStr "secret")] in
  let bob := User.mk 7 (PStr "bob") (PStr "secret") in
  let w := mkWorld (mkStore [bob] [] 8 1) None 0 in
  let env := mkEnv (json_request creds) true None 0 in
  let broken := mkEnv (json_request creds) true (Some (mkError 1205 "Lock wait timeout")) 0 in
  fst (login env (serve [(PostRegister, env); (DeleteTaskRoute 1, broken); (PostTasks, env)] w)) =
    Ok (jsonify [("id", PInt 7); ("username", PStr "bob")], 200).
Proof.
  intros creds bob w env broken.
  apply (login_survives_later_requests env w _ creds bob "bob" "secret");
    try reflexivity.
  - split; reflexivity.
  - left. reflexivity.
Defined.

Lemma dispatch_keeps_task (r : Route) (env : Env) (w : World) (t : Task.row) :
  In t (tasks (db w)) ->
  r <> PutTask (Task.id t) -> r <> DeleteTaskRoute (Task.id t) ->
  In t (tasks (db (snd (dispatch r env w)))).
Proof.
  intros Ht Hput Hdel.
  destruct r; handler_cases env; auto;
    unfold exec_stmt in Hexec;
    try (destruct (username_taken _ _); [discriminate|]);
    inversion Hexec; subst; cbn [tasks]; auto.
  - apply in_or_app. now left.
  - apply in_map_iff. exists t. split; auto.
    unfold has_id. destruct (Z.eqb_spec (Task.id t) task_id); [congruence|reflexivity].
  - apply filter_In. split; auto.
    unfold has_id. destruct (Z.eqb_spec (Task.id t) task_id); [congruence|reflexivity].
Qed.

(** X14.  A task row is changed or removed only by a PUT or a DELETE on
    its own id: after any other requests, with whatever bodies and
    faults, the row is in the table as it was. *)
Theorem task_kept_by_other_requests
    (reqs : list (Route * Env)) (w : World) (t : Task.row) :
  In t (tasks (db w)) ->
  Forall (fun re => fst re <> PutTask (Task.id t) /\ fst re <> DeleteTaskRoute (Task.id t))
         reqs ->
  In t (tasks (db (serve reqs w))).
Proof.
  intros Ht Hreqs. revert w Ht.
  induction Hreqs as [|[r env] reqs [Hput Hdel] _ IH]; intros w Ht; simpl; auto.
  apply IH. now apply dispatch_keeps_task.
Qed.

Lemma task_kept_by_other_requests_witness :
  let milk := Task.mk 1 (PStr "Buy milk") (PStr "pending") (PInt 1) 10 in
  let w := mkWorld (mkStore [] [milk] 1 2) None 0 in
  let env := mkEnv (json_request [("status", PStr "done"); ("title", PStr "Pay rent")])
                   true None 20 in
  In milk (tasks (db (serve [(PutTask 2, env); (PostTasks, env); (DeleteTaskRoute 2, env)] w))).
Proof.
  intros milk w env.
  apply task_kept_by_other_requests.
  - left. reflexivity.
  - repeat constructor; discriminate.
Defined.

(** ** Primary keys *)

(** No two rows of a table share an id. *)
Definition keys_unique (s : Store) : Prop :=
  NoDup (map User.id (users s)) /\ NoDup (map Task.id (tasks s)).

Lemma NoDup_snoc_fresh (l : list Z) (n : Z) :
  NoDup l -> (forall x, In x l -> x < n) -> NoDup (l ++ [n]).
Proof.
  induction 1 as [|a l Ha Hl IH]; simpl; intro Hb.
  - repeat constructor. intros [].
  - constructor.
    + intro H. apply in_app_or in H as [H|[H|[]]]; auto.
      specialize (Hb a (or_introl eq_refl)). lia.
    + apply IH. auto.
Qed.

Lemma NoDup_map_filter {A} (f : A -> Z) (p : A -> bool) (l : list A) :
  NoDup (map f l) -> NoDup (map f (filter p l)).
Proof.
  induction l as [|a l IH]; simpl; auto.
  intro H. inversion H as [|? ? Ha Hl]; subst.
  destruct (p a); simpl; auto.
  constructor; auto.
  intro Hin. apply Ha. apply in_map_iff in Hin as (x & Hx & Hin).
  apply filter_In in Hin as [Hin _]. apply in_map_iff. eauto.
Qed.

Lemma exec_stmt_keys (t0 : Z) (q : Stmt) (s s' : Store) (c : Cursor) :
  wf_store s = true -> keys_unique s ->
  exec_stmt t0 q s = inr (s', c) -> keys_unique s'.
Proof.
  unfold wf_store, keys_unique. intros Hwf [Hu Ht] E.
  apply andb_true_iff in Hwf as [Hwf Htid]. apply andb_true_iff in Hwf as [_ Huid].
  rewrite forallb_forall in Huid, Htid.
  destruct q; unfold exec_stmt in E;
    try (destruct (username_taken _ _); [discriminate|]);
    inversion E; subst; cbn [users tasks]; split; auto.
  - rewrite map_app. apply NoDup_snoc_fresh; auto.
    intros x Hx. apply in_map_iff in Hx as (r & <- & Hr).
    now apply Huid, Z.ltb_lt in Hr.
  - rewrite map_app. apply NoDup_snoc_fresh; auto.
    intros x Hx. apply in_map_iff in Hx as (r & <- & Hr).
    now apply Htid, Z.ltb_lt in Hr.
  - rewrite map_map.
    erewrite map_ext; [exact Ht|].
    intro t. cbn. now destruct (has_id task_id t).
  - now apply NoDup_map_filter.
Qed.

(** X15.  Ids identify rows: from a well-formed store without duplicate
    ids, every store reached by serving requests, with whatever faults,
    is again without duplicate user ids and task ids. *)
Theorem ids_stay_unique (reqs : list (Route * Env)) (w : World) :
  wf_store (db w) = true -> keys_unique (db w) ->
  keys_unique (db (serve reqs w)).
Proof.
  revert w. induction reqs as [|[r env] reqs IH]; intros w Hwf Hk; simpl; auto.
  apply IH.
  - now apply dispatch_wf.
  - destruct (dispatch_db r env w) as [->|(q & c & E)]; auto.
    eapply exec_stmt_keys; eauto.
Qed.

Lemma ids_stay_unique_witness :
  let env b := mkEnv (json_request b) true None 5 in
  let alice := [("username", PStr "alice"); ("password", PStr "pw1");
                ("title", PStr "Buy milk"); ("user_id", PInt 1)] in
  keys_unique (db (serve [(PostRegister, env alice); (PostTasks, env alice);
                          (DeleteTaskRoute 1, env alice); (PostTasks, env alice)]
                         initial_world)).
Proof.
  intros env alice.
  apply ids_stay_unique.
  - reflexivity.
  - split; constructor.
Defined.

(** ** Writes that follow one another *)

(** X16.  Of two status updates of one task the last one wins: the store
    after both is the store after the second alone. *)
Theorem update_task_last_wins
    (task_id : Z) (env1 env2 : Env) (w : World) (body1 body2 : Dict) :
  healthy env1 -> healthy env2 ->
  request env1 = json_request body1 -> request env2 = json_request body2 ->
  db (snd (update_task task_id env2 (snd (update_task task_id env1 w)))) =
  db (snd (update_task task_id env2 w)).
Proof.
  intros H1 H2 R1 R2.
  rewrite (update_task_healthy env1 w H1 body1 R1 task_id). cbn [snd].
  rewrite !(update_task_healthy env2 _ H2 body2 R2 task_id).
  cbn [snd closed db users tasks next_user_id next_task_id].
  f_equal. rewrite map_map. apply map_ext. intro t.
  unfold has_id. cbn. destruct (Task.id t =? task_id) eqn:E; cbn; rewrite E; reflexivity.
Qed.

Lemma update_task_last_wins_witness :
  let milk := Task.mk 1 (PStr "Buy milk") (PStr "pending") (PInt 1) 10 in
  let w := mkWorld (mkStore [] [milk] 1 2) None 0 in
  let env1 := mkEnv (json_request [("status", PStr "started")]) true None 11 in
  let env2 := mkEnv (json_request [("status", PStr "done")]) true None 12 in
  tasks (db (snd (update_task 1 env2 (snd (update_task 1 env1 w))))) =
    [Task.mk 1 (PStr "Buy milk") (PStr "done") (PInt 1) 10].
Proof.
  intros milk w env1 env2.
  assert (H1 : healthy env1) by (split; reflexivity).
  assert (H2 : healthy env2) by (split; reflexivity).
  rewrite (update_task_last_wins 1 env1 env2 w _ _ H1 H2 eq_refl eq_refl).
  reflexivity.
Defined.

Lemma filter_all {A} (p : A -> bool) (l : list A) :
  (forall x, In x l -> p x = true) -> filter p l = l.
Proof.
  induction l as [|a l IH]; simpl; auto.
  intro H. rewrite (H a (or_introl eq_refl)), IH; auto.
Qed.

(** X17.  Adding a task and deleting the id that [add_task] returned
    gives back the tasks table as it was, in a well-formed store; the id
    is used up all the same: the next task gets a later one. *)
Theorem add_then_delete_restores_tasks (env1 env2 : Env) (w : World) (body : Dict) :
  healthy env1 -> healthy env2 -> request env1 = json_request body ->
  wf_store (db w) = true ->
  let new_id := next_task_id (db w) in
  let w2 := snd (delete_task new_id env2 (snd (add_task env1 w))) in
  tasks (db w2) = tasks (db w) /\
  users (db w2) = users (db w) /\
  next_task_id (db w2) = new_id + 1.
Proof.
  intros H1 H2 R Hwf new_id w2. subst w2.
  rewrite (add_task_healthy env1 w H1 body R). cbn [snd].
  rewrite delete_task_healthy by assumption.
  cbn [snd closed db users tasks next_user_id next_task_id].
  repeat split.
  rewrite filter_app.
  replace (filter (fun t => negb (has_id new_id t))
             [Task.mk (next_task_id (db w)) (dict_get body "title")
                      (PStr "pending") (dict_get body "user_id") (now env1)])
    with (@nil Task.row)
    by (cbn; unfold has_id, new_id; cbn; now rewrite Z.eqb_refl).
  rewrite app_nil_r.
  apply filter_all. intros t Ht.
  unfold wf_store in Hwf. apply andb_true_iff in Hwf as [_ Hids].
  rewrite forallb_forall in Hids. apply Hids, Z.ltb_lt in Ht.
  unfold has_id. apply negb_true_iff, Z.eqb_neq. subst new_id. lia.
Qed.

Lemma add_then_delete_restores_tasks_witness :
  let milk := Task.mk 1 (PStr "Buy milk") (PStr "pending") (PInt 1) 10 in
  let w := mkWorld (mkStore [] [milk] 1 2) None 0 in
  let env := mkEnv (json_request [("title", PStr "Pay rent"); ("user_id", PInt 1)])
                   true None 20 in
  tasks (db (snd (delete_task 2 env (snd (add_task env w))))) = [milk].
Proof.
  intros milk w env.
  assert (Hh : healthy env) by (split; reflexivity).
  destruct (add_then_delete_restores_tasks env env w _ Hh Hh eq_refl eq_refl) as (H & _).
  exact H.
Defined.

(** ** Bodies that are not JSON objects *)

(** X18.  Under a JSON content type, [register], [login], [add_task] and
    [update_task] end with [BadRequest] when the body is not JSON text
    and with [AttributeError] when it is JSON but not an object.  Both
    happen before a connection is asked for: the world is untouched. *)
Theorem bad_body_raises (r : Route) (env : Env) (w : World) :
  reads_body r = true -> is_json (request env) = true ->
  (json (request env) = None -> dispatch r env w = (Raise BadRequest, w)) /\
  (json (request env) = Some PyOther -> dispatch r env w = (Raise AttributeError, w)).
Proof.
  intros Hr Hj.
  destruct r; try discriminate Hr; split; intro Hb; run_handler;
    rewrite Hj; cbn [negb]; rewrite Hb; reflexivity.
Qed.

Lemma bad_body_raises_witness :
  let array := mkEnv (mkRawRequest true (Some PyOther)) true None 0 in
  let garbage := mkEnv (mkRawRequest true None) true None 0 in
  dispatch PostRegister array initial_world = (Raise AttributeError, initial_world) /\
  dispatch PostLogin garbage initial_world = (Raise BadRequest, initial_world).
Proof.
  intros array garbage. split.
  - apply (bad_body_raises PostRegister array initial_world); reflexivity.
  - apply (bad_body_raises PostLogin garbage initial_world); reflexivity.
Defined.
